(** * react-ts-data-fetch: fetch, transform, render

    A shallow embedding of [src/App.tsx] (the [App] component with its
    [useEffect] callback and [fetchPosts]), of the two presentational
    components [ErrorMessage] and [BlogPosts], and of the generic [get]
    helper listed in [README.md].

    Conventions.
    - A promise is modelled by the way it settles ([Promise]); a promise
      that never settles has no value here, so every statement about a
      "completion" is about a settled promise.
    - Effectful code runs in [Async E A]: the events it performs, in
      program order, and the way it completes.  For [get] the events are
      the calls to the platform ([fetch], [response.json()]); for
      [fetchPosts] they are the calls to the three state setters.
    - The component is modelled on the TypeScript types as written: a
      value of type [RawDataBlogPost] has the four declared fields with
      the declared types.  The value bound by [catch (error)], of type
      [unknown], is modelled dynamically ([JsValue]).
    - The cast [as RawDataBlogPost[]] checks nothing, so the transformer
      is modelled a second time on what the decoding can return
      ([Runtime.Json]): there a field holds whatever the data holds, and
      reading a property of [null] throws. *)

From Stdlib Require Import String ZArith List DecimalString Relations Lia.
Import ListNotations.
Open Scope string_scope.
Open Scope list_scope.

(** ** JavaScript values that can be thrown and caught *)

(** An instance of [Error] or of one of its subclasses ([TypeError],
    [SyntaxError], ...), with its [name] and [message] properties. *)
Record Error : Type := { name : string; message : string }.

(** Numbers are restricted to integers, which is all the program meets. *)
Inductive JsValue : Type :=
| JsUndefined
| JsNull
| JsBoolean (b : bool)
| JsNumber (n : Z)
| JsString (s : string)
| JsErrorObject (e : Error)
| JsPlainObject (props : list (string * string)).

(** [new Error(message)] *)
Definition new_Error (msg : string) : JsValue :=
  JsErrorObject {| name := "Error"; message := msg |}.

(** [v instanceof Error], returning the narrowed value as TypeScript's
    control-flow narrowing does. *)
Definition instanceof_Error (v : JsValue) : option Error :=
  match v with
  | JsErrorObject e => Some e
  | _ => None
  end.

(** ** Promises and asynchronous code *)

(** How a promise settles; also how a block of an [async] function
    completes: normally with a value, or by throwing. *)
Inductive Promise (A : Type) : Type :=
| Resolved (value : A)
| Rejected (reason : JsValue).
Arguments Resolved {A} value.
Arguments Rejected {A} reason.

(** A computation that performs events of type [E] and completes. *)
Definition Async (E A : Type) : Type := (list E * Promise A)%type.

Definition events {E A : Type} (c : Async E A) : list E := fst c.
Definition outcome {E A : Type} (c : Async E A) : Promise A := snd c.

Definition ret {E A : Type} (a : A) : Async E A := ([], Resolved a).

Definition throw {E A : Type} (v : JsValue) : Async E A := ([], Rejected v).

Definition emit {E : Type} (e : E) : Async E unit := ([e], Resolved tt).

(** [await p] *)
Definition await {E A : Type} (p : Promise A) : Async E A := ([], p).

Definition bind {E A B : Type} (c : Async E A) (k : A -> Async E B) : Async E B :=
  match c with
  | (es, Resolved a) => let (es', r) := k a in (es ++ es', r)
  | (es, Rejected v) => (es, Rejected v)
  end.

(** [try { body } catch (error) { handler }] *)
Definition try_catch {E A : Type} (body : Async E A) (handler : JsValue -> Async E A)
  : Async E A :=
  match body with
  | (es, Resolved a) => (es, Resolved a)
  | (es, Rejected v) => let (es', r) := handler v in (es ++ es', r)
  end.

Declare Scope async_scope.
Delimit Scope async_scope with async.
Notation "x <- c ;; k" := (bind c (fun x => k))
  (at level 61, c at next level, right associativity) : async_scope.
Notation "c ;; k" := (bind c (fun _ => k))
  (at level 61, right associativity) : async_scope.
Open Scope async_scope.

(** [arr.map(callback)]: the callback runs on every element, first to
    last; whatever it does or throws belongs to the call. *)
Fixpoint Array_map {E A B : Type} (callback : A -> Async E B) (arr : list A)
  : Async E (list B) :=
  match arr with
  | [] => ret []
  | x :: rest =>
      y <- callback x ;;
      ys <- Array_map callback rest ;;
      ret (y :: ys)
  end.

(** ** The HTTP helper (README.md, "A Generic get Function") *)

Module Http.

(** What [get] reads of a [Response]: the [ok] flag and, through
    [response.json()], the body. *)
Record Response : Type := { ok : bool; body : string }.

Inductive Event : Type :=
| CallFetch (url : string)
| CallJson (response : Response).

Section Get.
(** The type argument of [get<T>]. *)
Context {T : Type}.
(** The platform's [fetch]. *)
Variable fetch : string -> Promise Response.
(** The platform's decoding of a body, seen through the unchecked
    casts [as unknown] and [as T]. *)
Variable JSON_parse : string -> Promise T.

(** [response.json()] *)
Definition Response_json (response : Response) : Async Event T :=
  emit (CallJson response) ;;
  await (JSON_parse (body response)).

Definition get (url : string) : Async Event T :=
  response <- (emit (CallFetch url) ;; await (fetch url)) ;;
  if negb (ok response) then
    throw (new_Error "Failed to fetch data.")
  else
    data <- Response_json response ;;
    ret data.
End Get.

End Http.

(** ** Data model (App.tsx, components/BlogPosts.tsx) *)

Module RawDataBlogPost.
Record t : Type := { id : Z; title : string; userId : string; body : string }.
End RawDataBlogPost.

Module BlogPost.
Record t : Type := { id : string; title : string; text : string }.
End BlogPost.

(** The field mapping of the data transformer, one record at a time. *)
Definition DisplayRecord_of (rawPost : RawDataBlogPost.t) : BlogPost.t :=
  {| BlogPost.id := RawDataBlogPost.userId rawPost;
     BlogPost.title := RawDataBlogPost.title rawPost;
     BlogPost.text := RawDataBlogPost.body rawPost |}.

(** A raw record with its own [id] replaced. *)
Definition with_id (n : Z) (rawPost : RawDataBlogPost.t) : RawDataBlogPost.t :=
  {| RawDataBlogPost.id := n;
     RawDataBlogPost.title := RawDataBlogPost.title rawPost;
     RawDataBlogPost.userId := RawDataBlogPost.userId rawPost;
     RawDataBlogPost.body := RawDataBlogPost.body rawPost |}.

(** ** React elements *)

#[warnings="-register-all"]
Inductive ReactNode : Type :=
| undefined
| text_node (s : string)
| element (tag : string) (props : list (string * string)) (children : list ReactNode).

(** components/ErrorMessage.tsx *)
Definition ErrorMessage (text : string) : ReactNode :=
  element "aside" [("id", "error")]
    [ element "h1" [] [text_node "An error occured!"];
      element "p" [] [text_node text] ].

(** components/BlogPosts.tsx; the [key] of a list item is kept with its
    props. *)
Definition BlogPosts (posts : list BlogPost.t) : ReactNode :=
  element "div"
    [("className", "w-[90%] bg-purple-200 p-4 flex flex-col items-center")]
    [ element "h1" [] [text_node "Blog Posts"];
      element "ul"
        [("className", "w-[90%] grid grid-cols-2 bg-purple-300 p-4 gap-5")]
        (map (fun post =>
                element "li"
                  [("key", BlogPost.id post);
                   ("className", "flex flex-col justify-center items-center")]
                  [ element "h2" [] [text_node (BlogPost.title post)];
                    element "p" [] [text_node (BlogPost.text post)] ])
             posts) ].

(** ** The App component *)

(** The three [useState] cells.  [None] is [undefined]. *)
Record State : Type :=
  { fetchedPosts : option (list BlogPost.t);
    isFetching : bool;
    error : option string }.

(** [useState<BlogPost[]>()], [useState(false)], [useState<string>()] *)
Definition initialState : State :=
  {| fetchedPosts := None; isFetching := false; error := None |}.

(** A call to one of the three setters. *)
Inductive Action : Type :=
| SetFetchedPosts (posts : list BlogPost.t)
| SetIsFetching (flag : bool)
| SetError (msg : string).

Definition setFetchedPosts (posts : list BlogPost.t) : Async Action unit :=
  emit (SetFetchedPosts posts).
Definition setIsFetching (flag : bool) : Async Action unit :=
  emit (SetIsFetching flag).
Definition setError (msg : string) : Async Action unit :=
  emit (SetError msg).

(** What a setter call does to the state. *)
Definition reduce (s : State) (a : Action) : State :=
  match a with
  | SetFetchedPosts posts =>
      {| fetchedPosts := Some posts; isFetching := isFetching s; error := error s |}
  | SetIsFetching flag =>
      {| fetchedPosts := fetchedPosts s; isFetching := flag; error := error s |}
  | SetError msg =>
      {| fetchedPosts := fetchedPosts s; isFetching := isFetching s; error := Some msg |}
  end.

(** The state once all the setter calls of a computation are applied. *)
Definition commit {A : Type} (s : State) (c : Async Action A) : State :=
  fold_left reduce (events c) s.

(** [data.map((rawPost) => { return { id: rawPost.userId, ... }; })] *)
Definition blogPosts {E : Type} (data : list RawDataBlogPost.t)
  : Async E (list BlogPost.t) :=
  Array_map
    (fun rawPost =>
       ret {| BlogPost.id := RawDataBlogPost.userId rawPost;
              BlogPost.title := RawDataBlogPost.title rawPost;
              BlogPost.text := RawDataBlogPost.body rawPost |})
    data.

(** The address [fetchPosts] hands to [get]. *)
Definition endpoint : string := "https://jsonplaceholder.typicode.com/posts".

(** Setter calls that store a result, as opposed to the in-flight flag. *)
Definition stores_result (a : Action) : bool :=
  match a with
  | SetFetchedPosts _ | SetError _ => true
  | SetIsFetching _ => false
  end.

(** The two things [App] returns: the loading indicator, and the page
    (image, then [content]). *)
Definition loadingIndicator : ReactNode :=
  element "p" [("className", "bg-purple-100 min-h-screen w-full")]
    [text_node "Loading..."].

Definition page (fetchingImg : string) (content : ReactNode) : ReactNode :=
  element "main" [("className", "bg-purple-100 min-h-screen w-full")]
    [ element "img" [("src", fetchingImg); ("alt", "An abstract image")] [];
      content ].

Section AppComponent.
(** The imported helper [get] of [./utils/http], by the way the promise
    it returns settles. *)
Variable get : string -> Promise (list RawDataBlogPost.t).
(** The URL the bundler gives the imported asset [./assets/react.svg]. *)
Variable fetchingImg : string.

Definition fetchPosts : Async Action unit :=
  try_catch
    (data <- await (get "https://jsonplaceholder.typicode.com/posts") ;;
     posts <- blogPosts data ;;
     setFetchedPosts posts)
    (fun error =>
       match instanceof_Error error with
       | Some e => setError (message e)
       | None => ret tt
       end) ;;
  setIsFetching false.

(** The callback given to [useEffect]; [fetchPosts()] is called and its
    promise dropped. *)
Definition effect : Async Action unit :=
  setIsFetching true ;;
  fetchPosts.

(** The body of [App] below the hooks: what it returns in state [s].
    [if (error)] holds when [error] is a string other than the empty
    one; [if (fetchedPosts)] holds when [fetchedPosts] is an array, empty
    or not. *)
Definition App (s : State) : ReactNode :=
  let content := undefined in
  let content :=
    match error s with
    | Some text => if (text =? "")%string then content else ErrorMessage text
    | None => content
    end in
  let content :=
    match fetchedPosts s with
    | Some posts => BlogPosts posts
    | None => content
    end in
  if isFetching s then
    element "p" [("className", "bg-purple-100 min-h-screen w-full")]
      [text_node "Loading..."]
  else
    element "main" [("className", "bg-purple-100 min-h-screen w-full")]
      [ element "img" [("src", fetchingImg); ("alt", "An abstract image")] [];
        content ].

(** The state shown once the effect has run to its end. *)
Definition finalState : State := commit initialState effect.

(** *** Execution as a transition system: the setter calls of the effect
    are applied to the state one at a time, in program order. *)
Record Config : Type := { state : State; pending : list Action }.

Inductive step : Config -> Config -> Prop :=
| step_setter (s : State) (a : Action) (rest : list Action) :
    step {| state := s; pending := a :: rest |}
         {| state := reduce s a; pending := rest |}.

(** The component is mounted: initial state, the effect still to run. *)
Definition mounted : Config :=
  {| state := initialState; pending := events effect |}.

Definition reachable (c : Config) : Prop :=
  clos_refl_trans_1n Config step mounted c.

End AppComponent.

(** *** The invariant of the execution *)

(** Calls still to come that store a result. *)
Definition stores_left (c : Config) : nat :=
  length (filter stores_result (pending c)).

(** Nothing stored yet and at most one store to come, or no store to
    come and at most one of the two cells set. *)
Definition at_most_one_result (c : Config) : Prop :=
  (fetchedPosts (state c) = None /\ error (state c) = None /\ (stores_left c <= 1)%nat)
  \/ ((fetchedPosts (state c) = None \/ error (state c) = None) /\ stores_left c = 0%nat).

(** ** The HTTP helper with validation (README.md, "Level-up: Use with Zod") *)

(** A synchronous call, by the way it completes: it returns or throws. *)
Definition call {E A : Type} (completion : Promise A) : Async E A := ([], completion).

Module HttpZod.

Inductive Event (U : Type) : Type :=
| CallFetch (url : string)
| CallJson (response : Http.Response)
| CallParse (data : U).
Arguments CallFetch {U} url.
Arguments CallJson {U} response.
Arguments CallParse {U} data.

Section Get.
(** What a body decodes to ([unknown]), and the type argument of [get<T>]. *)
Context {U T : Type}.
Variable fetch : string -> Promise Http.Response.
Variable JSON_parse : string -> Promise U.
(** [zodSchema.parse]: returns the validated value or throws. *)
Variable zodSchema : U -> Promise T.

(** [response.json()] *)
Definition Response_json (response : Http.Response) : Async (Event U) U :=
  emit (CallJson response) ;;
  await (JSON_parse (Http.body response)).

(** [zodSchema.parse(data)] *)
Definition zodSchema_parse (data : U) : Async (Event U) T :=
  emit (CallParse data) ;;
  call (zodSchema data).

Definition get (url : string) : Async (Event U) T :=
  response <- (emit (CallFetch url) ;; await (fetch url)) ;;
  if negb (Http.ok response) then
    throw (new_Error "Failed to fetch data.")
  else
    data <- Response_json response ;;
    try_catch
      (zodSchema_parse data)
      (fun error => throw (new_Error "Invalid data received from server.")).
End Get.

End HttpZod.

(** ** Reading a rendered tree *)

Definition children (node : ReactNode) : list ReactNode :=
  match node with
  | element _ _ cs => cs
  | _ => []
  end.

Fixpoint lookup_prop (key : string) (props : list (string * string)) : option string :=
  match props with
  | [] => None
  | (k, v) :: rest => if (k =? key)%string then Some v else lookup_prop key rest
  end.

Definition prop (key : string) (node : ReactNode) : option string :=
  match node with
  | element _ props _ => lookup_prop key props
  | _ => None
  end.

(** The items of the list in what [BlogPosts] returns: the children of
    its second child, the [ul]. *)
Definition list_items (view : ReactNode) : list ReactNode :=
  children (nth 1 (children view) undefined).

(** *** One more invariant of the execution *)

(** The effect has not started, or the flag is set and the call that
    clears it is the last one to come, or nothing is left to do. *)
Definition flag_follows_fetch (start c : Config) : Prop :=
  c = start
  \/ (isFetching (state c) = true
      /\ exists stores : list Action,
           pending c = stores ++ [SetIsFetching false]
           /\ forallb stores_result stores = true)
  \/ (pending c = [] /\ isFetching (state c) = false).

(** ** The transformer on what the decoding returns *)

Module Runtime.

(** A decoded JSON value.  Numbers are restricted to integers, which is
    what identifiers are; an object is given by its own properties, each
    key once. *)
#[warnings="-register-all"]
Inductive Json : Type :=
| JNull
| JBool (b : bool)
| JNum (n : Z)
| JStr (s : string)
| JArr (items : list Json)
| JObj (properties : list (string * Json)).

(** What a property access gives and what a field holds: a value, or
    [undefined] ([None]). *)
Definition Value : Type := option Json.

(** A [BlogPost] as it exists at run time: nothing makes its fields
    strings. *)
Record BlogPost : Type := { id : Value; title : Value; text : Value }.

Fixpoint lookup (key : string) (properties : list (string * Json)) : Value :=
  match properties with
  | [] => None
  | (k, v) :: rest => if (k =? key)%string then Some v else lookup key rest
  end.

(** The value of [v.key] when [v] is not [null], for a key that no
    built-in prototype defines ([userId], [title], [body]): the own
    property of an object, [undefined] on anything else. *)
Definition own_property (v : Json) (key : string) : Value :=
  match v with
  | JObj properties => lookup key properties
  | _ => None
  end.

(** The conversion [String(v)] where the model has it: [undefined], the
    primitives, and among the numbers the safe integers, which print in
    plain decimal. *)
Definition String_ (v : Value) : option string :=
  match v with
  | None => Some "undefined"
  | Some JNull => Some "null"
  | Some (JBool true) => Some "true"
  | Some (JBool false) => Some "false"
  | Some (JNum n) =>
      if (Z.abs n <=? 9007199254740991)%Z
      then Some (NilZero.string_of_int (Z.to_int n))
      else None
  | Some (JStr s) => Some s
  | Some (JArr _) | Some (JObj _) => None
  end.

(** The field mapping on one element that is not [null]. *)
Definition DisplayRecord_of (rawPost : Json) : BlogPost :=
  {| id := own_property rawPost "userId";
     title := own_property rawPost "title";
     text := own_property rawPost "body" |}.

(** An object without its property [key]; any other value as it is. *)
Definition without_property (key : string) (v : Json) : Json :=
  match v with
  | JObj properties =>
      JObj (filter (fun kv => negb (fst kv =? key)%string) properties)
  | _ => v
  end.

Section Transformer.
Context {E : Type}.
(** The text the engine gives the [TypeError] it throws when property
    [key] of [v] cannot be read or called; the language leaves it open. *)
Variable TypeError_message : Json -> string -> string.

Definition TypeError (v : Json) (key : string) : JsValue :=
  JsErrorObject {| name := "TypeError"; message := TypeError_message v key |}.

(** [v.key] *)
Definition get_property (v : Json) (key : string) : Async E Value :=
  match v with
  | JNull => throw (TypeError v key)
  | _ => ret (own_property v key)
  end.

(** [data.map((rawPost) => { return { id: rawPost.userId, ... }; })] on
    whatever [data] is: only an array has a [map] to call. *)
Definition blogPosts (data : Json) : Async E (list BlogPost) :=
  match data with
  | JArr items =>
      Array_map
        (fun rawPost =>
           userId <- get_property rawPost "userId" ;;
           title_ <- get_property rawPost "title" ;;
           body <- get_property rawPost "body" ;;
           ret {| id := userId; title := title_; text := body |})
        items
  | _ => throw (TypeError data "map")
  end.
End Transformer.

End Runtime.

(** A record of the declared type as the decoded value it is, and a
    [BlogPost] of the declared type as it exists at run time. *)
Definition json_of_RawDataBlogPost (rawPost : RawDataBlogPost.t) : Runtime.Json :=
  Runtime.JObj
    [ ("id", Runtime.JNum (RawDataBlogPost.id rawPost));
      ("title", Runtime.JStr (RawDataBlogPost.title rawPost));
      ("userId", Runtime.JStr (RawDataBlogPost.userId rawPost));
      ("body", Runtime.JStr (RawDataBlogPost.body rawPost)) ].

Definition BlogPost_at_runtime (post : BlogPost.t) : Runtime.BlogPost :=
  {| Runtime.id := Some (Runtime.JStr (BlogPost.id post));
     Runtime.title := Some (Runtime.JStr (BlogPost.title post));
     Runtime.text := Some (Runtime.JStr (BlogPost.text post)) |}.

(** * Properties *)

(** ** The monad: equations used below *)

Lemma bind_ret_l {E A B : Type} (a : A) (k : A -> Async E B) :
  bind (ret a) k = k a.
Proof.
  unfold bind, ret. destruct (k a) as [es r]. reflexivity.
Qed.

(** The same equation on the unfolded form of [ret], as it shows up
    after a computation has been evaluated. *)
Lemma bind_silent {E A B : Type} (a : A) (k : A -> Async E B) :
  bind (([] : list E), Resolved a) k = k a.
Proof. exact (bind_ret_l a k). Qed.

(** A callback that only returns makes [Array_map] the list [map]: no
    event, no exception. *)
Lemma Array_map_ret {E A B : Type} (f : A -> B) (arr : list A) :
  Array_map (fun x => ret (f x)) arr = (([] : list E), Resolved (map f arr)).
Proof.
  induction arr as [| x rest IH]; cbn [Array_map map].
  - reflexivity.
  - rewrite bind_ret_l, IH, bind_silent. reflexivity.
Qed.

Lemma blogPosts_map {E : Type} (data : list RawDataBlogPost.t) :
  @blogPosts E data = ([], Resolved (map DisplayRecord_of data)).
Proof. unfold blogPosts. apply (Array_map_ret DisplayRecord_of). Qed.

(** ** The data transformer *)

Lemma Array_map_Forall_ext {E A B : Type} (f g : A -> Async E B) (arr : list A) :
  Forall (fun x => f x = g x) arr -> Array_map f arr = Array_map g arr.
Proof.
  intros Hall. induction Hall as [| x rest Hx _ IH]; cbn [Array_map].
  - reflexivity.
  - rewrite Hx, IH. reflexivity.
Qed.

(** On an array without [null] the transformer is the field mapping,
    element by element: no event, no exception. *)
Lemma Runtime_blogPosts_without_null {E : Type}
    (TypeError_message : Runtime.Json -> string -> string) (items : list Runtime.Json) :
  Forall (fun rawPost => rawPost <> Runtime.JNull) items ->
  @Runtime.blogPosts E TypeError_message (Runtime.JArr items)
  = ([], Resolved (map Runtime.DisplayRecord_of items)).
Proof.
  intros Hall. unfold Runtime.blogPosts.
  rewrite <- (Array_map_ret Runtime.DisplayRecord_of items).
  apply Array_map_Forall_ext.
  eapply Forall_impl; [| exact Hall].
  intros rawPost Hnot. destruct rawPost; [contradiction | reflexivity ..].
Qed.

(** On an array with a [null] the first property access on it throws. *)
Lemma Runtime_blogPosts_with_null {E : Type}
    (TypeError_message : Runtime.Json -> string -> string) (items : list Runtime.Json) :
  In Runtime.JNull items ->
  @Runtime.blogPosts E TypeError_message (Runtime.JArr items)
  = ([], Rejected (Runtime.TypeError TypeError_message Runtime.JNull "userId")).
Proof.
  unfold Runtime.blogPosts.
  induction items as [| rawPost rest IH]; intros Hin; [destruct Hin |].
  cbn [Array_map].
  destruct rawPost; [reflexivity | ..];
    (destruct Hin as [Habs | Hin]; [discriminate Habs |]);
    rewrite (IH Hin); reflexivity.
Qed.

Lemma null_or_not (items : list Runtime.Json) :
  Forall (fun rawPost => rawPost <> Runtime.JNull) items \/ In Runtime.JNull items.
Proof.
  induction items as [| rawPost rest [IH | IH]].
  - left. constructor.
  - destruct rawPost; [right; left; reflexivity | ..];
      (left; constructor; [discriminate | exact IH]).
  - right. right. exact IH.
Qed.

Lemma lookup_without (key removed : string) (properties : list (string * Runtime.Json)) :
  (removed =? key)%string = false ->
  Runtime.lookup key
    (filter (fun kv => negb (fst kv =? removed)%string) properties)
  = Runtime.lookup key properties.
Proof.
  intros Hdiff. induction properties as [| [k v] rest IH]; cbn [filter Runtime.lookup fst].
  - reflexivity.
  - destruct (String.eqb_spec k removed) as [-> | Hk]; cbn [negb Runtime.lookup].
    + rewrite Hdiff. exact IH.
    + rewrite IH. reflexivity.
Qed.

Lemma DisplayRecord_of_without_id (rawPost : Runtime.Json) :
  Runtime.DisplayRecord_of (Runtime.without_property "id" rawPost)
  = Runtime.DisplayRecord_of rawPost.
Proof.
  destruct rawPost; try reflexivity.
  unfold Runtime.DisplayRecord_of, Runtime.without_property, Runtime.own_property.
  rewrite !lookup_without by reflexivity. reflexivity.
Qed.

Lemma without_property_not_null (key : string) (items : list Runtime.Json) :
  Forall (fun rawPost => rawPost <> Runtime.JNull) items ->
  Forall (fun rawPost => rawPost <> Runtime.JNull)
    (map (Runtime.without_property key) items).
Proof.
  intros Hall. induction Hall as [| rawPost rest Hnot _ IH]; cbn [map]; constructor.
  - destruct rawPost; [contradiction | discriminate ..].
  - exact IH.
Qed.

(** On data of the declared type the two models of the transformer
    agree. *)
Lemma Runtime_blogPosts_on_declared_type {E : Type}
    (TypeError_message : Runtime.Json -> string -> string)
    (data : list RawDataBlogPost.t) :
  @Runtime.blogPosts E TypeError_message
    (Runtime.JArr (map json_of_RawDataBlogPost data))
  = ([], Resolved (map BlogPost_at_runtime (map DisplayRecord_of data))).
Proof.
  rewrite Runtime_blogPosts_without_null.
  - rewrite !map_map. reflexivity.
  - apply Forall_forall. intros rawPost Hin.
    apply in_map_iff in Hin as (typed & <- & _). discriminate.
Qed.

(** C1, as amended. For every array of raw records (no element is
    [null]) the transformer returns an array of the same length and
    order in which the i-th record has for [id] the i-th raw [userId]
    itself, unconverted: it is the text [String(userId)] exactly when
    [userId] is a string already.  Its [title] is the raw [title], its
    [text] the raw [body], and the raw [id] has no influence on the
    output. *)
Theorem C1_transformer_copies_fields :
  forall (E : Type) (TypeError_message : Runtime.Json -> string -> string)
         (input : list Runtime.Json),
    Forall (fun rawPost => rawPost <> Runtime.JNull) input ->
    exists output : list Runtime.BlogPost,
      @Runtime.blogPosts E TypeError_message (Runtime.JArr input) = ([], Resolved output)
      /\ length output = length input
      /\ (forall (i : nat) (rawPost : Runtime.Json),
            nth_error input i = Some rawPost ->
            exists post : Runtime.BlogPost,
              nth_error output i = Some post
              /\ Runtime.id post = Runtime.own_property rawPost "userId"
              /\ ((exists text : string,
                     Runtime.String_ (Runtime.own_property rawPost "userId") = Some text
                     /\ Runtime.id post = Some (Runtime.JStr text))
                  <-> exists s : string,
                        Runtime.own_property rawPost "userId" = Some (Runtime.JStr s))
              /\ Runtime.title post = Runtime.own_property rawPost "title"
              /\ Runtime.text post = Runtime.own_property rawPost "body")
      /\ @Runtime.blogPosts E TypeError_message
           (Runtime.JArr (map (Runtime.without_property "id") input))
         = ([], Resolved output).
Proof.
  intros E TypeError_message input Hall.
  exists (map Runtime.DisplayRecord_of input).
  split; [apply Runtime_blogPosts_without_null; exact Hall |].
  split; [apply length_map |].
  split.
  - intros i rawPost Hi.
    exists (Runtime.DisplayRecord_of rawPost).
    split; [rewrite nth_error_map, Hi; reflexivity |].
    cbn [Runtime.DisplayRecord_of Runtime.id Runtime.title Runtime.text].
    repeat split.
    + intros (text & _ & Hid). exists text. exact Hid.
    + intros (s & Hs). exists s. rewrite Hs. split; reflexivity.
  - rewrite Runtime_blogPosts_without_null
      by (apply without_property_not_null; exact Hall).
    rewrite map_map. do 2 f_equal.
    apply map_ext. intros rawPost. apply DisplayRecord_of_without_id.
Qed.

Lemma C1_witness :
  let input :=
    [ Runtime.JObj [("id", Runtime.JNum 1); ("userId", Runtime.JNum 7);
                    ("title", Runtime.JStr "T"); ("body", Runtime.JStr "B")];
      Runtime.JObj [("id", Runtime.JNum 2); ("userId", Runtime.JStr "7");
                    ("title", Runtime.JStr "U"); ("body", Runtime.JStr "C")] ] in
  Forall (fun rawPost => rawPost <> Runtime.JNull) input
  /\ exists output : list Runtime.BlogPost,
       @Runtime.blogPosts unit (fun _ _ => "") (Runtime.JArr input) = ([], Resolved output)
       /\ length output = length input
       /\ (forall (i : nat) (rawPost : Runtime.Json),
             nth_error input i = Some rawPost ->
             exists post : Runtime.BlogPost,
               nth_error output i = Some post
               /\ Runtime.id post = Runtime.own_property rawPost "userId"
               /\ ((exists text : string,
                      Runtime.String_ (Runtime.own_property rawPost "userId") = Some text
                      /\ Runtime.id post = Some (Runtime.JStr text))
                   <-> exists s : string,
                         Runtime.own_property rawPost "userId" = Some (Runtime.JStr s))
               /\ Runtime.title post = Runtime.own_property rawPost "title"
               /\ Runtime.text post = Runtime.own_property rawPost "body")
       /\ @Runtime.blogPosts unit (fun _ _ => "")
            (Runtime.JArr (map (Runtime.without_property "id") input))
          = ([], Resolved output).
Proof.
  intros input.
  assert (Hall : Forall (fun rawPost => rawPost <> Runtime.JNull) input)
    by (repeat constructor; discriminate).
  split; [exact Hall |].
  exact (C1_transformer_copies_fields unit (fun _ _ => "") input Hall).
Defined.

(** C1 as stated fails: on the record with the numeric [userId] 7 the
    [id] of the output is the number 7, not the text "7" that
    [String(userId)] is. *)
Lemma C1_counterexample :
  let rawPost :=
    Runtime.JObj [("id", Runtime.JNum 1); ("userId", Runtime.JNum 7);
                  ("title", Runtime.JStr "T"); ("body", Runtime.JStr "B")] in
  Runtime.String_ (Runtime.own_property rawPost "userId") = Some "7"
  /\ exists post : Runtime.BlogPost,
       @Runtime.blogPosts unit (fun _ _ => "") (Runtime.JArr [rawPost])
       = ([], Resolved [post])
       /\ Runtime.id post = Some (Runtime.JNum 7)
       /\ Runtime.id post <> Some (Runtime.JStr "7").
Proof.
  intros rawPost. split; [reflexivity |].
  exists (Runtime.DisplayRecord_of rawPost).
  split; [reflexivity |]. split; [reflexivity | discriminate].
Qed.

(** C9, as amended. The transformer has no side effect: on every input
    array it performs no event.  It returns a value exactly when no
    element of the array is [null]; on an array with a [null] it throws
    a [TypeError].  When it returns, a second invocation on the same
    input returns the same value. *)
Theorem C9_transformer_pure_but_partial :
  forall (E : Type) (TypeError_message : Runtime.Json -> string -> string)
         (input : list Runtime.Json),
    events (@Runtime.blogPosts E TypeError_message (Runtime.JArr input)) = []
    /\ ((exists output : list Runtime.BlogPost,
           outcome (@Runtime.blogPosts E TypeError_message (Runtime.JArr input))
           = Resolved output)
        <-> Forall (fun rawPost => rawPost <> Runtime.JNull) input)
    /\ (In Runtime.JNull input ->
        exists e : Error,
          outcome (@Runtime.blogPosts E TypeError_message (Runtime.JArr input))
          = Rejected (JsErrorObject e)
          /\ name e = "TypeError")
    /\ (forall output : list Runtime.BlogPost,
          outcome (@Runtime.blogPosts E TypeError_message (Runtime.JArr input))
          = Resolved output ->
          (first <- @Runtime.blogPosts E TypeError_message (Runtime.JArr input) ;;
           second <- @Runtime.blogPosts E TypeError_message (Runtime.JArr input) ;;
           ret (first, second))
          = ([], Resolved (output, output))).
Proof.
  intros E TypeError_message input.
  destruct (null_or_not input) as [Hall | Hnull].
  - rewrite (Runtime_blogPosts_without_null TypeError_message input Hall).
    split; [reflexivity |]. split; [| split].
    + split; [intros _; exact Hall | intros _; eexists; reflexivity].
    + intros Hnull. rewrite Forall_forall in Hall.
      exfalso. exact (Hall _ Hnull eq_refl).
    + intros output [= <-]. reflexivity.
  - rewrite (Runtime_blogPosts_with_null TypeError_message input Hnull).
    split; [reflexivity |]. split; [| split].
    + split; [intros (output & Habs); discriminate Habs |].
      intros Hall. rewrite Forall_forall in Hall.
      exfalso. exact (Hall _ Hnull eq_refl).
    + intros _. eexists. split; reflexivity.
    + intros output Habs. discriminate Habs.
Qed.

(** C9 as stated fails: on an array whose second element is [null] the
    transformer throws and returns nothing. *)
Lemma C9_counterexample :
  let input :=
    Runtime.JArr
      [ Runtime.JObj [("id", Runtime.JNum 1); ("userId", Runtime.JNum 7);
                      ("title", Runtime.JStr "T"); ("body", Runtime.JStr "B")];
        Runtime.JNull ] in
  let TypeError_message := fun (_ : Runtime.Json) (key : string) =>
    ("Cannot read properties of null: " ++ key)%string in
  outcome (@Runtime.blogPosts unit TypeError_message input)
  = Rejected
      (JsErrorObject
         {| name := "TypeError"; message := "Cannot read properties of null: userId" |})
  /\ ~ (exists output : list Runtime.BlogPost,
          outcome (@Runtime.blogPosts unit TypeError_message input) = Resolved output).
Proof.
  intros input TypeError_message. split; [reflexivity |].
  intros (output & Habs). discriminate Habs.
Qed.

(** ** The HTTP helper *)

(** What [get] does once [fetch] has settled with a response. *)
Lemma get_not_ok {T : Type} (fetch : string -> Promise Http.Response)
    (JSON_parse : string -> Promise T) (url : string) (response : Http.Response) :
  fetch url = Resolved response ->
  Http.ok response = false ->
  Http.get fetch JSON_parse url
  = ([Http.CallFetch url], Rejected (new_Error "Failed to fetch data.")).
Proof.
  intros Hfetch Hok. unfold Http.get, await, emit, throw, bind.
  rewrite Hfetch, Hok. reflexivity.
Qed.

Lemma get_ok {T : Type} (fetch : string -> Promise Http.Response)
    (JSON_parse : string -> Promise T) (url : string) (response : Http.Response) :
  fetch url = Resolved response ->
  Http.ok response = true ->
  Http.get fetch JSON_parse url
  = ([Http.CallFetch url; Http.CallJson response],
     JSON_parse (Http.body response)).
Proof.
  intros Hfetch Hok.
  unfold Http.get, Http.Response_json, await, emit, ret, bind.
  rewrite Hfetch, Hok. cbn.
  destruct (JSON_parse (Http.body response)); reflexivity.
Qed.

(** C3. When the response's status indicates failure, [get] rejects with
    an [Error] whose message is "Failed to fetch data.", whatever the
    body, and never calls [response.json()]. *)
Theorem C3_get_rejects_on_failure_status :
  forall (T : Type) (fetch : string -> Promise Http.Response)
         (JSON_parse : string -> Promise T) (url : string)
         (response : Http.Response),
    fetch url = Resolved response ->
    Http.ok response = false ->
    outcome (Http.get fetch JSON_parse url)
    = Rejected (JsErrorObject {| name := "Error"; message := "Failed to fetch data." |})
    /\ (forall r : Http.Response,
          ~ In (Http.CallJson r) (events (Http.get fetch JSON_parse url))).
Proof.
  intros T fetch JSON_parse url response Hfetch Hok.
  rewrite (get_not_ok fetch JSON_parse url response Hfetch Hok).
  split; [reflexivity |].
  intros r [Habs | []]. discriminate Habs.
Qed.

Lemma C3_witness :
  let fetch := fun _ : string =>
    Resolved {| Http.ok := false; Http.body := "Not Found" |} in
  let JSON_parse := fun _ : string => Rejected (A := list Z)
    (JsErrorObject {| name := "SyntaxError"; message := "Unexpected token" |}) in
  outcome (Http.get fetch JSON_parse endpoint)
  = Rejected (JsErrorObject {| name := "Error"; message := "Failed to fetch data." |})
  /\ (forall r : Http.Response,
        ~ In (Http.CallJson r) (events (Http.get fetch JSON_parse endpoint))).
Proof.
  intros fetch JSON_parse.
  apply (C3_get_rejects_on_failure_status (list Z) fetch JSON_parse endpoint
           {| Http.ok := false; Http.body := "Not Found" |});
    reflexivity.
Defined.

(** C8. When the response's status indicates success and its body
    decodes to an array, [get] resolves with that very array: same
    elements, same order. *)
Theorem C8_get_resolves_with_decoded_array :
  forall (X : Type) (fetch : string -> Promise Http.Response)
         (JSON_parse : string -> Promise (list X)) (url : string)
         (response : Http.Response) (decoded : list X),
    fetch url = Resolved response ->
    Http.ok response = true ->
    JSON_parse (Http.body response) = Resolved decoded ->
    outcome (Http.get fetch JSON_parse url) = Resolved decoded.
Proof.
  intros X fetch JSON_parse url response decoded Hfetch Hok Hjson.
  rewrite (get_ok fetch JSON_parse url response Hfetch Hok).
  exact Hjson.
Qed.

Lemma C8_witness :
  let fetch := fun _ : string =>
    Resolved {| Http.ok := true; Http.body := "[3,1,2,1]" |} in
  let JSON_parse := fun text : string =>
    if (text =? "[3,1,2,1]")%string then Resolved [3; 1; 2; 1]%Z
    else Rejected (JsErrorObject {| name := "SyntaxError"; message := "Unexpected token" |}) in
  outcome (Http.get fetch JSON_parse endpoint) = Resolved [3; 1; 2; 1]%Z.
Proof.
  intros fetch JSON_parse.
  apply (C8_get_resolves_with_decoded_array Z fetch JSON_parse endpoint
           {| Http.ok := true; Http.body := "[3,1,2,1]" |});
    reflexivity.
Defined.

(** ** The view controller: what [fetchPosts] does *)

Section FetchPosts.
Variable get : string -> Promise (list RawDataBlogPost.t).

Lemma fetchPosts_resolved (data : list RawDataBlogPost.t) :
  get endpoint = Resolved data ->
  fetchPosts get
  = ([SetFetchedPosts (map DisplayRecord_of data); SetIsFetching false], Resolved tt).
Proof.
  unfold endpoint, fetchPosts. intros ->.
  unfold await. rewrite bind_silent, blogPosts_map, bind_silent. reflexivity.
Qed.

Lemma fetchPosts_rejected_Error (reason : JsValue) (e : Error) :
  get endpoint = Rejected reason ->
  instanceof_Error reason = Some e ->
  fetchPosts get = ([SetError (message e); SetIsFetching false], Resolved tt).
Proof.
  unfold endpoint, fetchPosts. intros -> He.
  unfold await, bind at 2, try_catch. rewrite He. reflexivity.
Qed.

Lemma fetchPosts_rejected_other (reason : JsValue) :
  get endpoint = Rejected reason ->
  instanceof_Error reason = None ->
  fetchPosts get = ([SetIsFetching false], Resolved tt).
Proof.
  unfold endpoint, fetchPosts. intros -> He.
  unfold await, bind at 2, try_catch. rewrite He. reflexivity.
Qed.

(** The setter calls of [fetchPosts]: at most one call that stores a
    result, then the call that clears the flag; and [fetchPosts] itself
    never rejects. *)
Lemma fetchPosts_shape :
  exists stores : list Action,
    fetchPosts get = (stores ++ [SetIsFetching false], Resolved tt)
    /\ (length stores <= 1)%nat
    /\ forallb stores_result stores = true.
Proof.
  destruct (get endpoint) as [data | reason] eqn:Hget.
  - exists [SetFetchedPosts (map DisplayRecord_of data)].
    rewrite (fetchPosts_resolved data Hget). repeat split. simpl. lia.
  - destruct (instanceof_Error reason) as [e |] eqn:He.
    + exists [SetError (message e)].
      rewrite (fetchPosts_rejected_Error reason e Hget He). repeat split. simpl. lia.
    + exists [].
      rewrite (fetchPosts_rejected_other reason Hget He). repeat split. simpl. lia.
Qed.

End FetchPosts.

(** C4. When [get] rejects with a value that is not an instance of
    [Error], [fetchPosts] calls neither [setError] nor
    [setFetchedPosts] but still calls [setIsFetching(false)]; the final
    state has no error, no records and a cleared flag, and [App]
    returns the page with no content. *)
Theorem C4_unrecognized_failure_is_silent :
  forall (get : string -> Promise (list RawDataBlogPost.t)) (fetchingImg : string)
         (reason : JsValue),
    get endpoint = Rejected reason ->
    instanceof_Error reason = None ->
    events (fetchPosts get) = [SetIsFetching false]
    /\ error (finalState get) = None
    /\ fetchedPosts (finalState get) = None
    /\ isFetching (finalState get) = false
    /\ App fetchingImg (finalState get) = page fetchingImg undefined.
Proof.
  intros get fetchingImg reason Hget He.
  pose proof (fetchPosts_rejected_other get reason Hget He) as Hrun.
  assert (Hfinal : finalState get = initialState).
  { unfold finalState, commit, effect, setIsFetching, emit, bind.
    rewrite Hrun. reflexivity. }
  rewrite Hfinal, Hrun. repeat split.
Qed.

Lemma C4_witness :
  let get := fun _ : string =>
    Rejected (A := list RawDataBlogPost.t) (JsString "boom") in
  events (fetchPosts get) = [SetIsFetching false]
  /\ error (finalState get) = None
  /\ fetchedPosts (finalState get) = None
  /\ isFetching (finalState get) = false
  /\ App "/assets/react.svg" (finalState get) = page "/assets/react.svg" undefined.
Proof.
  intros get.
  apply (C4_unrecognized_failure_is_silent get "/assets/react.svg" (JsString "boom"));
    reflexivity.
Defined.

(** C5. However [get] settles, [fetchPosts] completes and its last
    setter call is [setIsFetching(false)]; the records (on success) or
    the error message (on a failure that is an [Error]) are stored by a
    call before it, and no earlier call touches the flag. *)
Theorem C5_loading_flag_cleared_last :
  forall get : string -> Promise (list RawDataBlogPost.t),
  exists stores : list Action,
    events (fetchPosts get) = stores ++ [SetIsFetching false]
    /\ outcome (fetchPosts get) = Resolved tt
    /\ forallb stores_result stores = true
    /\ (forall data : list RawDataBlogPost.t,
          get endpoint = Resolved data ->
          exists posts : list BlogPost.t,
            @blogPosts Action data = ([], Resolved posts)
            /\ stores = [SetFetchedPosts posts])
    /\ (forall (reason : JsValue) (e : Error),
          get endpoint = Rejected reason ->
          instanceof_Error reason = Some e ->
          stores = [SetError (message e)])
    /\ (forall reason : JsValue,
          get endpoint = Rejected reason ->
          instanceof_Error reason = None ->
          stores = []).
Proof.
  intros get.
  destruct (get endpoint) as [data | reason] eqn:Hget.
  - exists [SetFetchedPosts (map DisplayRecord_of data)].
    rewrite (fetchPosts_resolved get data Hget).
    repeat split; try discriminate.
    intros data' [= <-]. exists (map DisplayRecord_of data).
    split; [apply blogPosts_map | reflexivity].
  - destruct (instanceof_Error reason) as [e |] eqn:He.
    + exists [SetError (message e)].
      rewrite (fetchPosts_rejected_Error get reason e Hget He).
      repeat split; try discriminate.
      * intros reason' e' [= <-] He'. congruence.
      * intros reason' [= <-] He'. congruence.
    + exists [].
      rewrite (fetchPosts_rejected_other get reason Hget He).
      repeat split; try discriminate.
      intros reason' e' [= <-] He'. congruence.
Qed.

(** C7. When [get] resolves with the empty array, the final state holds
    an empty array of records and [App] returns the page with the posts
    container, whose list has no item; this is not the page without
    content. *)
Theorem C7_empty_result_renders_empty_list :
  forall (get : string -> Promise (list RawDataBlogPost.t)) (fetchingImg : string),
    get endpoint = Resolved [] ->
    fetchedPosts (finalState get) = Some []
    /\ App fetchingImg (finalState get)
       = page fetchingImg
           (element "div"
              [("className", "w-[90%] bg-purple-200 p-4 flex flex-col items-center")]
              [ element "h1" [] [text_node "Blog Posts"];
                element "ul"
                  [("className", "w-[90%] grid grid-cols-2 bg-purple-300 p-4 gap-5")]
                  [] ])
    /\ App fetchingImg (finalState get) <> page fetchingImg undefined.
Proof.
  intros get fetchingImg Hget.
  pose proof (fetchPosts_resolved get [] Hget) as Hrun.
  assert (Hfinal : finalState get
                   = {| fetchedPosts := Some []; isFetching := false; error := None |}).
  { unfold finalState, commit, effect, setIsFetching, emit, bind.
    rewrite Hrun. reflexivity. }
  rewrite Hfinal. repeat split. discriminate.
Qed.

Lemma C7_witness :
  let get := fun _ : string => Resolved (@nil RawDataBlogPost.t) in
  fetchedPosts (finalState get) = Some []
  /\ App "/assets/react.svg" (finalState get)
     = page "/assets/react.svg"
         (element "div"
            [("className", "w-[90%] bg-purple-200 p-4 flex flex-col items-center")]
            [ element "h1" [] [text_node "Blog Posts"];
              element "ul"
                [("className", "w-[90%] grid grid-cols-2 bg-purple-300 p-4 gap-5")]
                [] ])
  /\ App "/assets/react.svg" (finalState get) <> page "/assets/react.svg" undefined.
Proof.
  intros get.
  apply (C7_empty_result_renders_empty_list get "/assets/react.svg"); reflexivity.
Defined.

(** ** The view controller: what [App] returns *)

(** C6. While the in-flight flag is set, [App] returns the loading
    indicator, whatever the error and the records are. *)
Theorem C6_loading_precedes_everything :
  forall (fetchingImg : string) (s : State),
    isFetching s = true ->
    App fetchingImg s = loadingIndicator.
Proof.
  intros fetchingImg s Hflag. unfold App. rewrite Hflag. reflexivity.
Qed.

Lemma C6_witness :
  App "/assets/react.svg"
    {| fetchedPosts := Some [{| BlogPost.id := "7"; BlogPost.title := "T"; BlogPost.text := "B" |}];
       isFetching := true;
       error := Some "Failed to fetch data." |}
  = loadingIndicator.
Proof.
  apply (C6_loading_precedes_everything "/assets/react.svg"); reflexivity.
Defined.

(** C2. With the in-flight flag cleared, an error message set and
    records set, [App] returns the page with the records view, which is
    not the page with the error view. *)
Theorem C2_loaded_overrides_error :
  forall (fetchingImg : string) (s : State) (msg : string) (posts : list BlogPost.t),
    isFetching s = false ->
    error s = Some msg ->
    fetchedPosts s = Some posts ->
    App fetchingImg s = page fetchingImg (BlogPosts posts)
    /\ App fetchingImg s <> page fetchingImg (ErrorMessage msg).
Proof.
  intros fetchingImg s msg posts Hflag Herr Hposts.
  assert (Hrender : App fetchingImg s = page fetchingImg (BlogPosts posts)).
  { unfold App. rewrite Hflag, Hposts. reflexivity. }
  split; [exact Hrender |].
  rewrite Hrender. unfold page, BlogPosts, ErrorMessage. discriminate.
Qed.

Lemma C2_witness :
  let s := {| fetchedPosts :=
                Some [{| BlogPost.id := "7"; BlogPost.title := "T"; BlogPost.text := "B" |}];
              isFetching := false;
              error := Some "Failed to fetch data." |} in
  App "/assets/react.svg" s
  = page "/assets/react.svg"
      (BlogPosts [{| BlogPost.id := "7"; BlogPost.title := "T"; BlogPost.text := "B" |}])
  /\ App "/assets/react.svg" s
     <> page "/assets/react.svg" (ErrorMessage "Failed to fetch data.").
Proof.
  intros s.
  apply (C2_loaded_overrides_error "/assets/react.svg" s "Failed to fetch data."
           [{| BlogPost.id := "7"; BlogPost.title := "T"; BlogPost.text := "B" |}]);
    reflexivity.
Defined.

(** ** The view controller: reachable states *)

Lemma at_most_one_result_step (c c' : Config) :
  step c c' -> at_most_one_result c -> at_most_one_result c'.
Proof.
  intros Hstep. destruct Hstep as [s a rest].
  unfold at_most_one_result, stores_left. cbn [state pending filter].
  destruct a as [posts | flag | msg]; cbn [stores_result reduce fetchedPosts error length];
    intros [(Hp & He & Hn) | (Hone & Hn)]; try lia; try discriminate.
  - right. split; [right; exact He | lia].
  - left. auto.
  - right. auto.
  - right. split; [left; exact Hp | lia].
Qed.

Lemma at_most_one_result_mounted (get : string -> Promise (list RawDataBlogPost.t)) :
  at_most_one_result (mounted get).
Proof.
  destruct (fetchPosts_shape get) as (stores & Hrun & Hlen & Hall).
  left. unfold stores_left, mounted, effect, setIsFetching, emit, bind.
  rewrite Hrun. cbn [state pending events fst fetchedPosts error initialState app].
  repeat split.
  cbn [filter stores_result]. rewrite filter_app. cbn [filter stores_result].
  rewrite length_app. cbn [length].
  pose proof (filter_length_le stores_result stores). lia.
Qed.

Lemma at_most_one_result_reachable
    (get : string -> Promise (list RawDataBlogPost.t)) (c : Config) :
  reachable get c -> at_most_one_result c.
Proof.
  unfold reachable. intros Hreach.
  pose proof (at_most_one_result_mounted get) as Hstart.
  induction Hreach as [start | start mid last Hstep _ IH].
  - exact Hstart.
  - apply IH. exact (at_most_one_result_step start mid Hstep Hstart).
Qed.

(** C10. In every state the execution of the effect reaches from the
    initial state, the error message and the records are not both set:
    the state in which the records view overrides the error view does
    not occur. *)
Theorem C10_error_and_records_never_both :
  forall (get : string -> Promise (list RawDataBlogPost.t)) (c : Config),
    reachable get c ->
    ~ (exists (msg : string) (posts : list BlogPost.t),
         error (state c) = Some msg /\ fetchedPosts (state c) = Some posts).
Proof.
  intros get c Hreach (msg & posts & Herr & Hposts).
  destruct (at_most_one_result_reachable get c Hreach)
    as [(Hp & _ & _) | ([Hp | He] & _)]; congruence.
Qed.

Lemma C10_witness :
  let get := fun _ : string =>
    Resolved [{| RawDataBlogPost.id := 1; RawDataBlogPost.title := "T";
                 RawDataBlogPost.userId := "7"; RawDataBlogPost.body := "B" |}] in
  let c := {| state :=
                {| fetchedPosts :=
                     Some [{| BlogPost.id := "7"; BlogPost.title := "T"; BlogPost.text := "B" |}];
                   isFetching := false;
                   error := None |};
              pending := [] |} in
  reachable get c
  /\ ~ (exists (msg : string) (posts : list BlogPost.t),
         error (state c) = Some msg /\ fetchedPosts (state c) = Some posts).
Proof.
  intros get c.
  assert (Hreach : reachable get c).
  { unfold reachable.
    eapply Relation_Operators.rt1n_trans; [apply step_setter |].
    eapply Relation_Operators.rt1n_trans; [apply step_setter |].
    eapply Relation_Operators.rt1n_trans; [apply step_setter |].
    apply Relation_Operators.rt1n_refl. }
  split; [exact Hreach | exact (C10_error_and_records_never_both get c Hreach)].
Defined.

(** ** Scenarios: the helper and the component together *)

(** [get] handed to the component, by the way its promise settles. *)
Lemma get_then_fetchPosts_failure
    (fetch : string -> Promise Http.Response)
    (JSON_parse : string -> Promise (list RawDataBlogPost.t))
    (fetchingImg : string) (response : Http.Response) :
  fetch endpoint = Resolved response ->
  Http.ok response = false ->
  App fetchingImg (finalState (fun url => outcome (Http.get fetch JSON_parse url)))
  = page fetchingImg (ErrorMessage "Failed to fetch data.").
Proof.
  intros Hfetch Hok.
  set (get := fun url => outcome (Http.get fetch JSON_parse url)).
  assert (Hget : get endpoint = Rejected (new_Error "Failed to fetch data.")).
  { unfold get. rewrite (get_not_ok fetch JSON_parse endpoint response Hfetch Hok).
    reflexivity. }
  pose proof (fetchPosts_rejected_Error get _ _ Hget eq_refl) as Hrun.
  unfold finalState, commit, effect, setIsFetching, emit, bind.
  rewrite Hrun. reflexivity.
Qed.

Example scenario_happy_path :
  let fetch := fun _ : string => Resolved {| Http.ok := true; Http.body := "[...]" |} in
  let JSON_parse := fun _ : string =>
    Resolved [{| RawDataBlogPost.id := 1; RawDataBlogPost.title := "T";
                 RawDataBlogPost.userId := "7"; RawDataBlogPost.body := "B" |}] in
  let get := fun url => outcome (Http.get fetch JSON_parse url) in
  events (effect get)
  = [ SetIsFetching true;
      SetFetchedPosts [{| BlogPost.id := "7"; BlogPost.title := "T"; BlogPost.text := "B" |}];
      SetIsFetching false ]
  /\ App "/assets/react.svg" (finalState get)
     = page "/assets/react.svg"
         (BlogPosts [{| BlogPost.id := "7"; BlogPost.title := "T"; BlogPost.text := "B" |}]).
Proof. split; reflexivity. Qed.

Example scenario_error_instance_is_shown :
  let get := fun _ : string =>
    Rejected (A := list RawDataBlogPost.t)
      (JsErrorObject {| name := "TypeError"; message := "Failed to fetch" |}) in
  events (effect get)
  = [SetIsFetching true; SetError "Failed to fetch"; SetIsFetching false]
  /\ App "/assets/react.svg" (finalState get)
     = page "/assets/react.svg" (ErrorMessage "Failed to fetch").
Proof. split; reflexivity. Qed.

(** * Further properties of the code *)

(** ** [get]: every way it can settle *)

(** X1. [get] resolves with a value exactly when [fetch] resolved with
    an ok response whose body decodes to that value. *)
Theorem get_resolves_iff :
  forall (T : Type) (fetch : string -> Promise Http.Response)
         (JSON_parse : string -> Promise T) (url : string) (value : T),
    outcome (Http.get fetch JSON_parse url) = Resolved value
    <-> exists response : Http.Response,
          fetch url = Resolved response
          /\ Http.ok response = true
          /\ JSON_parse (Http.body response) = Resolved value.
Proof.
  intros T fetch JSON_parse url value. split.
  - destruct (fetch url) as [response | reason] eqn:Hfetch.
    + destruct (Http.ok response) eqn:Hok.
      * rewrite (get_ok fetch JSON_parse url response Hfetch Hok).
        intros Hval. exists response. auto.
      * rewrite (get_not_ok fetch JSON_parse url response Hfetch Hok). discriminate.
    + unfold Http.get, await, emit, bind. rewrite Hfetch. discriminate.
  - intros (response & Hfetch & Hok & Hval).
    rewrite (get_ok fetch JSON_parse url response Hfetch Hok). exact Hval.
Qed.

Lemma get_fetch_rejected {T : Type} (fetch : string -> Promise Http.Response)
    (JSON_parse : string -> Promise T) (url : string) (reason : JsValue) :
  fetch url = Rejected reason ->
  Http.get fetch JSON_parse url = ([Http.CallFetch url], Rejected reason).
Proof.
  intros Hfetch. unfold Http.get, await, emit, bind. rewrite Hfetch. reflexivity.
Qed.

(** X2. When [fetch] itself rejects, [get] rejects with the very same
    reason, not with its own message, and [response.json()] is not
    called. *)
Theorem get_forwards_fetch_rejection :
  forall (T : Type) (fetch : string -> Promise Http.Response)
         (JSON_parse : string -> Promise T) (url : string) (reason : JsValue),
    fetch url = Rejected reason ->
    Http.get fetch JSON_parse url = ([Http.CallFetch url], Rejected reason).
Proof.
  intros T fetch JSON_parse url reason Hfetch.
  exact (get_fetch_rejected fetch JSON_parse url reason Hfetch).
Qed.

Lemma get_forwards_fetch_rejection_witness :
  let fetch := fun _ : string =>
    Rejected (A := Http.Response)
      (JsErrorObject {| name := "TypeError"; message := "Failed to fetch" |}) in
  let JSON_parse := fun _ : string => Resolved [1; 2]%Z in
  Http.get fetch JSON_parse endpoint
  = ([Http.CallFetch endpoint],
     Rejected (JsErrorObject {| name := "TypeError"; message := "Failed to fetch" |})).
Proof.
  intros fetch JSON_parse.
  apply (get_forwards_fetch_rejection (list Z) fetch JSON_parse endpoint); reflexivity.
Defined.

(** X3. When the status is ok and the body does not decode, [get]
    rejects with the decoder's reason, after one call of [fetch] and one
    of [response.json()]. *)
Theorem get_forwards_decode_rejection :
  forall (T : Type) (fetch : string -> Promise Http.Response)
         (JSON_parse : string -> Promise T) (url : string)
         (response : Http.Response) (reason : JsValue),
    fetch url = Resolved response ->
    Http.ok response = true ->
    JSON_parse (Http.body response) = Rejected reason ->
    Http.get fetch JSON_parse url
    = ([Http.CallFetch url; Http.CallJson response], Rejected reason).
Proof.
  intros T fetch JSON_parse url response reason Hfetch Hok Hjson.
  rewrite (get_ok fetch JSON_parse url response Hfetch Hok), Hjson. reflexivity.
Qed.

Lemma get_forwards_decode_rejection_witness :
  let response := {| Http.ok := true; Http.body := "<html>" |} in
  let fetch := fun _ : string => Resolved response in
  let JSON_parse := fun _ : string =>
    Rejected (A := list Z)
      (JsErrorObject {| name := "SyntaxError"; message := "Unexpected token <" |}) in
  Http.get fetch JSON_parse endpoint
  = ([Http.CallFetch endpoint; Http.CallJson response],
     Rejected (JsErrorObject {| name := "SyntaxError"; message := "Unexpected token <" |})).
Proof.
  intros response fetch JSON_parse.
  apply (get_forwards_decode_rejection (list Z) fetch JSON_parse endpoint response);
    reflexivity.
Defined.

(** X4. [get] calls [fetch] once, first, with the URL it was given; it
    calls [response.json()] at most once, after it, and only on an ok
    response that [fetch] returned. *)
Theorem get_platform_calls :
  forall (T : Type) (fetch : string -> Promise Http.Response)
         (JSON_parse : string -> Promise T) (url : string),
    events (Http.get fetch JSON_parse url) = [Http.CallFetch url]
    \/ exists response : Http.Response,
         fetch url = Resolved response
         /\ Http.ok response = true
         /\ events (Http.get fetch JSON_parse url)
            = [Http.CallFetch url; Http.CallJson response].
Proof.
  intros T fetch JSON_parse url.
  destruct (fetch url) as [response | reason] eqn:Hfetch.
  - destruct (Http.ok response) eqn:Hok.
    + right. exists response.
      rewrite (get_ok fetch JSON_parse url response Hfetch Hok). auto.
    + left. rewrite (get_not_ok fetch JSON_parse url response Hfetch Hok). reflexivity.
  - left. rewrite (get_fetch_rejected fetch JSON_parse url reason Hfetch).
    reflexivity.
Qed.

(** ** [get] with a schema: every way it can settle *)

Section ZodGet.
Context {U T : Type}.
Variable fetch : string -> Promise Http.Response.
Variable JSON_parse : string -> Promise U.
Variable zodSchema : U -> Promise T.
Variable url : string.

Lemma zod_get_fetch_rejected (reason : JsValue) :
  fetch url = Rejected reason ->
  HttpZod.get fetch JSON_parse zodSchema url
  = ([HttpZod.CallFetch url], Rejected reason).
Proof.
  intros Hfetch. unfold HttpZod.get, await, emit, bind. rewrite Hfetch. reflexivity.
Qed.

Lemma zod_get_not_ok (response : Http.Response) :
  fetch url = Resolved response ->
  Http.ok response = false ->
  HttpZod.get fetch JSON_parse zodSchema url
  = ([HttpZod.CallFetch url], Rejected (new_Error "Failed to fetch data.")).
Proof.
  intros Hfetch Hok. unfold HttpZod.get, await, emit, throw, bind.
  rewrite Hfetch, Hok. reflexivity.
Qed.

Lemma zod_get_decode_rejected (response : Http.Response) (reason : JsValue) :
  fetch url = Resolved response ->
  Http.ok response = true ->
  JSON_parse (Http.body response) = Rejected reason ->
  HttpZod.get fetch JSON_parse zodSchema url
  = ([HttpZod.CallFetch url; HttpZod.CallJson response], Rejected reason).
Proof.
  intros Hfetch Hok Hjson.
  unfold HttpZod.get, HttpZod.Response_json, await, emit, bind.
  rewrite Hfetch, Hok. cbn. rewrite Hjson. reflexivity.
Qed.

Lemma zod_get_decoded (response : Http.Response) (data : U) :
  fetch url = Resolved response ->
  Http.ok response = true ->
  JSON_parse (Http.body response) = Resolved data ->
  HttpZod.get fetch JSON_parse zodSchema url
  = ([HttpZod.CallFetch url; HttpZod.CallJson response; HttpZod.CallParse data],
     match zodSchema data with
     | Resolved value => Resolved value
     | Rejected _ => Rejected (new_Error "Invalid data received from server.")
     end).
Proof.
  intros Hfetch Hok Hjson.
  unfold HttpZod.get, HttpZod.Response_json, HttpZod.zodSchema_parse,
    await, call, emit, throw, try_catch, bind.
  rewrite Hfetch, Hok. cbn. rewrite Hjson.
  destruct (zodSchema data); reflexivity.
Qed.

End ZodGet.

(** X5. When the decoded data fails validation, [get] rejects with an
    [Error] whose message is "Invalid data received from server.",
    whatever the schema threw. *)
Theorem zod_get_hides_validation_error :
  forall (U T : Type) (fetch : string -> Promise Http.Response)
         (JSON_parse : string -> Promise U) (zodSchema : U -> Promise T)
         (url : string) (response : Http.Response) (data : U) (thrown : JsValue),
    fetch url = Resolved response ->
    Http.ok response = true ->
    JSON_parse (Http.body response) = Resolved data ->
    zodSchema data = Rejected thrown ->
    outcome (HttpZod.get fetch JSON_parse zodSchema url)
    = Rejected
        (JsErrorObject {| name := "Error"; message := "Invalid data received from server." |}).
Proof.
  intros U T fetch JSON_parse zodSchema url response data thrown Hfetch Hok Hjson Hzod.
  rewrite (zod_get_decoded fetch JSON_parse zodSchema url response data Hfetch Hok Hjson).
  cbn. rewrite Hzod. reflexivity.
Qed.

Lemma zod_get_hides_validation_error_witness :
  let fetch := fun _ : string => Resolved {| Http.ok := true; Http.body := "[-1]" |} in
  let JSON_parse := fun _ : string => Resolved [(-1)%Z] in
  let zodSchema := fun data : list Z =>
    if forallb (Z.leb 0) data then Resolved data
    else Rejected (JsErrorObject {| name := "ZodError"; message := "too small" |}) in
  outcome (HttpZod.get fetch JSON_parse zodSchema endpoint)
  = Rejected
      (JsErrorObject {| name := "Error"; message := "Invalid data received from server." |}).
Proof.
  intros fetch JSON_parse zodSchema.
  apply (zod_get_hides_validation_error (list Z) (list Z) fetch JSON_parse zodSchema
           endpoint {| Http.ok := true; Http.body := "[-1]" |} [(-1)%Z]
           (JsErrorObject {| name := "ZodError"; message := "too small" |}));
    reflexivity.
Defined.

(** X6. [get] with a schema resolves with a value exactly when [fetch]
    resolved with an ok response, its body decodes, and the schema
    returns that value for the decoded data. *)
Theorem zod_get_resolves_iff :
  forall (U T : Type) (fetch : string -> Promise Http.Response)
         (JSON_parse : string -> Promise U) (zodSchema : U -> Promise T)
         (url : string) (value : T),
    outcome (HttpZod.get fetch JSON_parse zodSchema url) = Resolved value
    <-> exists (response : Http.Response) (data : U),
          fetch url = Resolved response
          /\ Http.ok response = true
          /\ JSON_parse (Http.body response) = Resolved data
          /\ zodSchema data = Resolved value.
Proof.
  intros U T fetch JSON_parse zodSchema url value. split.
  - destruct (fetch url) as [response | reason] eqn:Hfetch.
    + destruct (Http.ok response) eqn:Hok.
      * destruct (JSON_parse (Http.body response)) as [data | reason] eqn:Hjson.
        -- rewrite (zod_get_decoded fetch JSON_parse zodSchema url response data
                      Hfetch Hok Hjson).
           cbn. destruct (zodSchema data) as [v | thrown] eqn:Hzod; [| discriminate].
           intros [= ->]. exists response, data. auto.
        -- rewrite (zod_get_decode_rejected fetch JSON_parse zodSchema url response
                      reason Hfetch Hok Hjson).
           discriminate.
      * rewrite (zod_get_not_ok fetch JSON_parse zodSchema url response Hfetch Hok).
        discriminate.
    + rewrite (zod_get_fetch_rejected fetch JSON_parse zodSchema url reason Hfetch).
      discriminate.
  - intros (response & data & Hfetch & Hok & Hjson & Hzod).
    rewrite (zod_get_decoded fetch JSON_parse zodSchema url response data Hfetch Hok Hjson).
    cbn. rewrite Hzod. reflexivity.
Qed.

(** X7. The schema is consulted only on what the body of an ok response
    decoded to: not after a failed [fetch], a failure status or a body
    that does not decode. *)
Theorem zod_get_validates_decoded_data_only :
  forall (U T : Type) (fetch : string -> Promise Http.Response)
         (JSON_parse : string -> Promise U) (zodSchema : U -> Promise T)
         (url : string) (data : U),
    In (HttpZod.CallParse data) (events (HttpZod.get fetch JSON_parse zodSchema url)) ->
    exists response : Http.Response,
      fetch url = Resolved response
      /\ Http.ok response = true
      /\ JSON_parse (Http.body response) = Resolved data.
Proof.
  intros U T fetch JSON_parse zodSchema url data.
  destruct (fetch url) as [response | reason] eqn:Hfetch.
  - destruct (Http.ok response) eqn:Hok.
    + destruct (JSON_parse (Http.body response)) as [data' | reason] eqn:Hjson.
      * rewrite (zod_get_decoded fetch JSON_parse zodSchema url response data'
                   Hfetch Hok Hjson).
        cbn. intros [Habs | [Habs | [[= ->] | []]]]; try discriminate.
        exists response. auto.
      * rewrite (zod_get_decode_rejected fetch JSON_parse zodSchema url response
                   reason Hfetch Hok Hjson).
        cbn. intros [Habs | [Habs | []]]; discriminate.
    + rewrite (zod_get_not_ok fetch JSON_parse zodSchema url response Hfetch Hok).
      cbn. intros [Habs | []]; discriminate.
  - rewrite (zod_get_fetch_rejected fetch JSON_parse zodSchema url reason Hfetch).
    cbn. intros [Habs | []]; discriminate.
Qed.

Lemma zod_get_validates_decoded_data_only_witness :
  let response := {| Http.ok := true; Http.body := "[4]" |} in
  let fetch := fun _ : string => Resolved response in
  let JSON_parse := fun _ : string => Resolved [4%Z] in
  let zodSchema := fun data : list Z => Resolved (length data) in
  exists r : Http.Response,
    fetch endpoint = Resolved r
    /\ Http.ok r = true
    /\ JSON_parse (Http.body r) = Resolved [4%Z].
Proof.
  intros response fetch JSON_parse zodSchema.
  apply (zod_get_validates_decoded_data_only (list Z) nat fetch JSON_parse zodSchema
           endpoint [4%Z]).
  simpl. auto.
Defined.

(** X8. With a schema that returns its argument, [get] with a schema
    settles as the plain [get] does. *)
Theorem zod_get_with_accepting_schema :
  forall (T : Type) (fetch : string -> Promise Http.Response)
         (JSON_parse : string -> Promise T) (url : string),
    outcome (HttpZod.get fetch JSON_parse (fun data => Resolved data) url)
    = outcome (Http.get fetch JSON_parse url).
Proof.
  intros T fetch JSON_parse url.
  destruct (fetch url) as [response | reason] eqn:Hfetch.
  - destruct (Http.ok response) eqn:Hok.
    + rewrite (get_ok fetch JSON_parse url response Hfetch Hok).
      destruct (JSON_parse (Http.body response)) as [data | reason] eqn:Hjson.
      * rewrite (zod_get_decoded fetch JSON_parse _ url response data Hfetch Hok Hjson).
        reflexivity.
      * rewrite (zod_get_decode_rejected fetch JSON_parse _ url response reason
                   Hfetch Hok Hjson).
        reflexivity.
    + rewrite (get_not_ok fetch JSON_parse url response Hfetch Hok).
      rewrite (zod_get_not_ok fetch JSON_parse _ url response Hfetch Hok). reflexivity.
  - rewrite (get_fetch_rejected fetch JSON_parse url reason Hfetch).
    rewrite (zod_get_fetch_rejected fetch JSON_parse _ url reason Hfetch). reflexivity.
Qed.

(** ** The components: what a view tells *)

Lemma ErrorMessage_inj (text text' : string) :
  ErrorMessage text = ErrorMessage text' -> text = text'.
Proof. unfold ErrorMessage. intros [= ->]. reflexivity. Qed.

Lemma BlogPosts_inj (posts posts' : list BlogPost.t) :
  BlogPosts posts = BlogPosts posts' -> posts = posts'.
Proof.
  unfold BlogPosts. intros [= Hitems].
  revert posts' Hitems.
  induction posts as [| post rest IH]; intros [| post' rest']; cbn [map];
    intros Hitems; try discriminate; [reflexivity |].
  injection Hitems as Hid Htitle Htext Hrest.
  destruct post, post'. cbn in Hid, Htitle, Htext. subst.
  f_equal. apply IH. exact Hrest.
Qed.

(** X9. [BlogPosts] shows its argument without loss: two arrays of posts
    with the same view are the same array (same length, order, ids,
    titles and texts). *)
Theorem BlogPosts_view_determines_posts :
  forall posts posts' : list BlogPost.t,
    BlogPosts posts = BlogPosts posts' <-> posts = posts'.
Proof.
  intros posts posts'. split.
  - apply BlogPosts_inj.
  - intros ->. reflexivity.
Qed.

Lemma list_items_BlogPosts_keys (posts : list BlogPost.t) :
  map (prop "key") (list_items (BlogPosts posts))
  = map (fun post => Some (BlogPost.id post)) posts.
Proof.
  unfold list_items, BlogPosts. cbn [children nth].
  rewrite map_map. apply map_ext. intros post. reflexivity.
Qed.

Lemma NoDup_map_Some {A : Type} (l : list A) :
  NoDup (map Some l) <-> NoDup l.
Proof.
  split.
  - apply NoDup_map_inv.
  - intros Hl. induction Hl as [| x rest Hx _ IH]; cbn [map]; constructor.
    + rewrite in_map_iff. intros (y & [= ->] & Hy). exact (Hx Hy).
    + exact IH.
Qed.

(** X10. The list [BlogPosts] returns for the transformed data has one
    item per raw record; the keys of the items are the raw [userId]s in
    order, so the keys are pairwise distinct exactly when no two raw
    records have the same [userId]. *)
Theorem list_item_keys_are_owner_ids :
  forall data : list RawDataBlogPost.t,
    length (list_items (BlogPosts (map DisplayRecord_of data))) = length data
    /\ map (prop "key") (list_items (BlogPosts (map DisplayRecord_of data)))
       = map (fun rawPost => Some (RawDataBlogPost.userId rawPost)) data
    /\ (NoDup (map (prop "key") (list_items (BlogPosts (map DisplayRecord_of data))))
        <-> NoDup (map RawDataBlogPost.userId data)).
Proof.
  intros data.
  assert (Hkeys : map (prop "key") (list_items (BlogPosts (map DisplayRecord_of data)))
                  = map Some (map RawDataBlogPost.userId data)).
  { rewrite list_items_BlogPosts_keys, !map_map. reflexivity. }
  split; [| split].
  - unfold list_items, BlogPosts. cbn [children nth]. rewrite !length_map. reflexivity.
  - rewrite Hkeys, map_map. reflexivity.
  - rewrite Hkeys. apply NoDup_map_Some.
Qed.

(** ** The transformer: what it keeps *)

Lemma DisplayRecord_of_eq_iff (a b : RawDataBlogPost.t) :
  DisplayRecord_of a = DisplayRecord_of b <-> with_id 0 a = with_id 0 b.
Proof.
  destruct a, b. unfold DisplayRecord_of, with_id. cbn.
  split; intros [= -> -> ->]; reflexivity.
Qed.

Lemma map_eq_pointwise {A B C : Type} (f : A -> B) (g : A -> C) :
  (forall a b, f a = f b -> g a = g b) ->
  forall l l', map f l = map f l' -> map g l = map g l'.
Proof.
  intros Hfg. induction l as [| x rest IH]; intros [| y rest']; cbn [map];
    intros Heq; try discriminate; [reflexivity |].
  injection Heq as Hhead Htail.
  f_equal; [apply Hfg; exact Hhead | apply IH; exact Htail].
Qed.

(** X11. The transformer drops the raw [id] and nothing else: two inputs
    have the same output exactly when they are equal once every raw
    [id] is set to 0, that is, when they agree on the length and, record
    by record, on [userId], [title] and [body]. *)
Theorem transformer_forgets_only_the_raw_id :
  forall (E : Type) (data data' : list RawDataBlogPost.t),
    @blogPosts E data = @blogPosts E data'
    <-> map (with_id 0) data = map (with_id 0) data'.
Proof.
  intros E data data'. rewrite !blogPosts_map. split.
  - intros [= Heq]. revert Heq.
    apply map_eq_pointwise. intros a b. apply DisplayRecord_of_eq_iff.
  - intros Heq. do 2 f_equal. revert Heq.
    apply map_eq_pointwise. intros a b. apply DisplayRecord_of_eq_iff.
Qed.

(** ** [App]: which view in which state *)

Lemma App_of_state (fetchingImg : string) (s : State) :
  App fetchingImg s
  = if isFetching s then loadingIndicator
    else page fetchingImg
           match fetchedPosts s, error s with
           | Some posts, _ => BlogPosts posts
           | None, Some text => if (text =? "")%string then undefined else ErrorMessage text
           | None, None => undefined
           end.
Proof.
  unfold App, loadingIndicator, page.
  destruct (isFetching s); [reflexivity |].
  destruct (fetchedPosts s), (error s); reflexivity.
Qed.

Lemma page_inj (fetchingImg : string) (content content' : ReactNode) :
  page fetchingImg content = page fetchingImg content' -> content = content'.
Proof. unfold page. intros [= ->]. reflexivity. Qed.

(** X12. [App] returns the loading indicator exactly when the in-flight
    flag is set. *)
Theorem App_loading_iff :
  forall (fetchingImg : string) (s : State),
    App fetchingImg s = loadingIndicator <-> isFetching s = true.
Proof.
  intros fetchingImg s. rewrite App_of_state.
  destruct (isFetching s); split; try reflexivity; discriminate.
Qed.

(** X13. [App] returns the page with the records view of [posts] exactly
    when the flag is cleared and the records cell holds [posts]; the
    error cell plays no part. *)
Theorem App_records_view_iff :
  forall (fetchingImg : string) (s : State) (posts : list BlogPost.t),
    App fetchingImg s = page fetchingImg (BlogPosts posts)
    <-> isFetching s = false /\ fetchedPosts s = Some posts.
Proof.
  intros fetchingImg s posts. rewrite App_of_state.
  destruct (isFetching s).
  - split; [discriminate | intros [Habs _]; discriminate Habs].
  - destruct (fetchedPosts s) as [shown |].
    + split.
      * intros Hview. apply page_inj, BlogPosts_inj in Hview. subst. auto.
      * intros [_ [= ->]]. reflexivity.
    + split; [| intros [_ Habs]; discriminate Habs].
      intros Hview. apply page_inj in Hview.
      destruct (error s) as [text |]; [destruct (text =? "")%string |];
        discriminate Hview.
Qed.

(** X14. [App] returns the page with the error view of [msg] exactly
    when the flag is cleared, the records cell is unset and the error
    cell holds [msg], a string other than the empty one. *)
Theorem App_error_view_iff :
  forall (fetchingImg : string) (s : State) (msg : string),
    App fetchingImg s = page fetchingImg (ErrorMessage msg)
    <-> isFetching s = false /\ fetchedPosts s = None
        /\ error s = Some msg /\ msg <> "".
Proof.
  intros fetchingImg s msg. rewrite App_of_state.
  destruct (isFetching s).
  - split; [discriminate | intros [Habs _]; discriminate Habs].
  - destruct (fetchedPosts s) as [shown |].
    + split; [| intros (_ & Habs & _); discriminate Habs].
      intros Hview. apply page_inj in Hview. discriminate Hview.
    + destruct (error s) as [text |].
      * destruct (String.eqb_spec text "") as [Hempty | Hfull].
        -- split; [intros Hview; apply page_inj in Hview; discriminate Hview |].
           intros (_ & _ & [= ->] & Hmsg). contradiction.
        -- split.
           ++ intros Hview. apply page_inj, ErrorMessage_inj in Hview. subst. auto.
           ++ intros (_ & _ & [= ->] & _). reflexivity.
      * split; [intros Hview; apply page_inj in Hview; discriminate Hview |].
        intros (_ & _ & Habs & _). discriminate Habs.
Qed.

(** X15. [App] returns the page without content exactly when the flag is
    cleared, the records cell is unset and the error cell is unset or
    holds the empty string. *)
Theorem App_blank_page_iff :
  forall (fetchingImg : string) (s : State),
    App fetchingImg s = page fetchingImg undefined
    <-> isFetching s = false /\ fetchedPosts s = None
        /\ (error s = None \/ error s = Some "").
Proof.
  intros fetchingImg s. rewrite App_of_state.
  destruct (isFetching s).
  - split; [discriminate | intros [Habs _]; discriminate Habs].
  - destruct (fetchedPosts s) as [shown |].
    + split; [| intros (_ & Habs & _); discriminate Habs].
      intros Hview. apply page_inj in Hview. discriminate Hview.
    + destruct (error s) as [text |].
      * destruct (String.eqb_spec text "") as [Hempty | Hfull].
        -- subst. split; auto.
        -- split.
           ++ intros Hview. apply page_inj in Hview. discriminate Hview.
           ++ intros (_ & _ & [Habs | [= Habs]]); [discriminate Habs | contradiction].
      * split; auto.
Qed.

(** ** The effect: the final state and the view it gives *)

Lemma finalState_of_run (get : string -> Promise (list RawDataBlogPost.t))
    (calls : list Action) (r : Promise unit) :
  fetchPosts get = (calls, r) ->
  finalState get = fold_left reduce calls (reduce initialState (SetIsFetching true)).
Proof.
  intros Hrun. unfold finalState, commit, effect, setIsFetching, emit, bind.
  rewrite Hrun. reflexivity.
Qed.

(** X16. When [get] resolves with an array of records of the declared
    type [RawDataBlogPost[]], the final state holds the transformed
    records, no error and a cleared flag, and [App] returns the page
    with their records view. *)
Theorem success_shows_transformed_records :
  forall (get : string -> Promise (list RawDataBlogPost.t)) (fetchingImg : string)
         (data : list RawDataBlogPost.t),
    get endpoint = Resolved data ->
    finalState get
    = {| fetchedPosts := Some (map DisplayRecord_of data);
         isFetching := false;
         error := None |}
    /\ App fetchingImg (finalState get)
       = page fetchingImg (BlogPosts (map DisplayRecord_of data)).
Proof.
  intros get fetchingImg data Hget.
  rewrite (finalState_of_run get _ _ (fetchPosts_resolved get data Hget)).
  split; reflexivity.
Qed.

Lemma success_shows_transformed_records_witness :
  let data := [ {| RawDataBlogPost.id := 1; RawDataBlogPost.title := "T";
                   RawDataBlogPost.userId := "7"; RawDataBlogPost.body := "B" |};
                {| RawDataBlogPost.id := 2; RawDataBlogPost.title := "U";
                   RawDataBlogPost.userId := "7"; RawDataBlogPost.body := "C" |} ] in
  let get := fun _ : string => Resolved data in
  finalState get
  = {| fetchedPosts := Some (map DisplayRecord_of data);
       isFetching := false;
       error := None |}
  /\ App "/assets/react.svg" (finalState get)
     = page "/assets/react.svg" (BlogPosts (map DisplayRecord_of data)).
Proof.
  intros data get.
  apply (success_shows_transformed_records get "/assets/react.svg" data); reflexivity.
Defined.

Lemma final_after_Error_rejection
    (get : string -> Promise (list RawDataBlogPost.t)) (fetchingImg : string)
    (reason : JsValue) (e : Error) :
  get endpoint = Rejected reason ->
  instanceof_Error reason = Some e ->
  message e <> "" ->
  finalState get
  = {| fetchedPosts := None; isFetching := false; error := Some (message e) |}
  /\ App fetchingImg (finalState get) = page fetchingImg (ErrorMessage (message e)).
Proof.
  intros Hget He Hmsg.
  rewrite (finalState_of_run get _ _ (fetchPosts_rejected_Error get reason e Hget He)).
  split; [reflexivity |].
  rewrite App_of_state. cbn.
  destruct (String.eqb_spec (message e) "") as [Hempty | _]; [contradiction | reflexivity].
Qed.

(** X17. When [get] rejects with an [Error] whose message is not empty,
    the final state holds that message and no records, and [App]
    returns the page with the error view of that message. *)
Theorem Error_rejection_shows_its_message :
  forall (get : string -> Promise (list RawDataBlogPost.t)) (fetchingImg : string)
         (reason : JsValue) (e : Error),
    get endpoint = Rejected reason ->
    instanceof_Error reason = Some e ->
    message e <> "" ->
    finalState get
    = {| fetchedPosts := None; isFetching := false; error := Some (message e) |}
    /\ App fetchingImg (finalState get) = page fetchingImg (ErrorMessage (message e)).
Proof.
  intros get fetchingImg reason e Hget He Hmsg.
  exact (final_after_Error_rejection get fetchingImg reason e Hget He Hmsg).
Qed.

Lemma Error_rejection_shows_its_message_witness :
  let e := {| name := "SyntaxError"; message := "Unexpected token <" |} in
  let get := fun _ : string =>
    Rejected (A := list RawDataBlogPost.t) (JsErrorObject e) in
  finalState get
  = {| fetchedPosts := None; isFetching := false; error := Some (message e) |}
  /\ App "/assets/react.svg" (finalState get)
     = page "/assets/react.svg" (ErrorMessage (message e)).
Proof.
  intros e get.
  apply (Error_rejection_shows_its_message get "/assets/react.svg" (JsErrorObject e) e);
    [reflexivity | reflexivity | discriminate].
Defined.

(** X18. When [get] rejects with an [Error] whose message is the empty
    string, [setError] is called with it and the error cell is set, yet
    [App] returns the page without content. *)
Theorem Error_with_empty_message_shows_nothing :
  forall (get : string -> Promise (list RawDataBlogPost.t)) (fetchingImg : string)
         (reason : JsValue) (e : Error),
    get endpoint = Rejected reason ->
    instanceof_Error reason = Some e ->
    message e = "" ->
    events (fetchPosts get) = [SetError ""; SetIsFetching false]
    /\ error (finalState get) = Some ""
    /\ App fetchingImg (finalState get) = page fetchingImg undefined.
Proof.
  intros get fetchingImg reason e Hget He Hmsg.
  pose proof (fetchPosts_rejected_Error get reason e Hget He) as Hrun.
  rewrite (finalState_of_run get _ _ Hrun), Hrun, Hmsg.
  repeat split.
Qed.

Lemma Error_with_empty_message_shows_nothing_witness :
  let e := {| name := "Error"; message := "" |} in
  let get := fun _ : string =>
    Rejected (A := list RawDataBlogPost.t) (JsErrorObject e) in
  events (fetchPosts get) = [SetError ""; SetIsFetching false]
  /\ error (finalState get) = Some ""
  /\ App "/assets/react.svg" (finalState get) = page "/assets/react.svg" undefined.
Proof.
  intros e get.
  apply (Error_with_empty_message_shows_nothing get "/assets/react.svg"
           (JsErrorObject e) e);
    reflexivity.
Defined.

(** X19. However [get] settles, the flag is cleared in the final state:
    [App] does not return the loading indicator there. *)
Theorem final_state_is_not_loading :
  forall (get : string -> Promise (list RawDataBlogPost.t)) (fetchingImg : string),
    isFetching (finalState get) = false
    /\ App fetchingImg (finalState get) <> loadingIndicator.
Proof.
  intros get fetchingImg.
  assert (Hflag : isFetching (finalState get) = false).
  { destruct (fetchPosts_shape get) as (stores & Hrun & _ & _).
    rewrite (finalState_of_run get _ _ Hrun), fold_left_app. reflexivity. }
  split; [exact Hflag |].
  rewrite App_of_state, Hflag. unfold page, loadingIndicator. discriminate.
Qed.

(** ** The effect: the states on the way *)

Lemma mounted_shape (get : string -> Promise (list RawDataBlogPost.t)) :
  exists stores : list Action,
    mounted get
    = {| state := initialState;
         pending := SetIsFetching true :: stores ++ [SetIsFetching false] |}
    /\ forallb stores_result stores = true.
Proof.
  destruct (fetchPosts_shape get) as (stores & Hrun & _ & Hall).
  exists stores. split; [| exact Hall].
  unfold mounted, effect, setIsFetching, emit, bind. rewrite Hrun. reflexivity.
Qed.

Lemma flag_follows_fetch_step
    (get : string -> Promise (list RawDataBlogPost.t)) (c c' : Config) :
  step c c' ->
  flag_follows_fetch (mounted get) c ->
  flag_follows_fetch (mounted get) c'.
Proof.
  intros Hstep. destruct Hstep as [s a rest].
  intros [Hstart | [(Hflag & stores & Hpend & Hall) | (Hpend & _)]].
  - destruct (mounted_shape get) as (stores & Hshape & Hall).
    rewrite Hshape in Hstart. injection Hstart as -> -> ->.
    right; left. split; [reflexivity |]. exists stores. auto.
  - cbn [state pending] in *.
    destruct stores as [| x stores'].
    + injection Hpend as -> ->. right; right. auto.
    + injection Hpend as -> ->.
      cbn [forallb] in Hall. apply andb_prop in Hall as [Hx Hall].
      right; left. split.
      * cbn [state]. destruct x; [exact Hflag | discriminate Hx | exact Hflag].
      * exists stores'. auto.
  - discriminate Hpend.
Qed.

Lemma flag_follows_fetch_closed
    (get : string -> Promise (list RawDataBlogPost.t)) (c c' : Config) :
  clos_refl_trans_1n Config step c c' ->
  flag_follows_fetch (mounted get) c ->
  flag_follows_fetch (mounted get) c'.
Proof.
  intros Hrun. induction Hrun as [c | c mid c' Hstep _ IH]; intros Hinv.
  - exact Hinv.
  - apply IH. exact (flag_follows_fetch_step get c mid Hstep Hinv).
Qed.

(** X20. From the first setter call of the effect until its last, the
    flag is set: in every reachable configuration other than the
    mounted one that still has a call to come, [App] returns the
    loading indicator, whatever has been stored by then. *)
Theorem loading_shown_while_fetching :
  forall (get : string -> Promise (list RawDataBlogPost.t)) (fetchingImg : string)
         (c : Config),
    reachable get c ->
    c <> mounted get ->
    pending c <> [] ->
    isFetching (state c) = true
    /\ App fetchingImg (state c) = loadingIndicator.
Proof.
  intros get fetchingImg c Hreach Hstarted Hleft.
  assert (Hflag : isFetching (state c) = true).
  { destruct (flag_follows_fetch_closed get (mounted get) c Hreach (or_introl eq_refl))
      as [Hstart | [(Hflag & _) | (Hdone & _)]];
      [contradiction | exact Hflag | contradiction]. }
  split; [exact Hflag |].
  rewrite App_of_state, Hflag. reflexivity.
Qed.

Lemma loading_shown_while_fetching_witness :
  let posts := [{| BlogPost.id := "7"; BlogPost.title := "T"; BlogPost.text := "B" |}] in
  let get := fun _ : string =>
    Resolved [{| RawDataBlogPost.id := 1; RawDataBlogPost.title := "T";
                 RawDataBlogPost.userId := "7"; RawDataBlogPost.body := "B" |}] in
  let c := {| state := {| fetchedPosts := Some posts; isFetching := true; error := None |};
              pending := [SetIsFetching false] |} in
  isFetching (state c) = true
  /\ App "/assets/react.svg" (state c) = loadingIndicator.
Proof.
  intros posts get c.
  apply (loading_shown_while_fetching get "/assets/react.svg" c).
  - unfold reachable.
    eapply Relation_Operators.rt1n_trans; [apply step_setter |].
    eapply Relation_Operators.rt1n_trans; [apply step_setter |].
    apply Relation_Operators.rt1n_refl.
  - discriminate.
  - discriminate.
Defined.

(** ** The helper and the component together *)

(** X22. With the README's [get] as the helper, a response whose status
    indicates failure ends in the error view with the text "Failed to
    fetch data." and no records, whatever the body is. *)
Theorem failure_status_ends_in_error_view :
  forall (fetch : string -> Promise Http.Response)
         (JSON_parse : string -> Promise (list RawDataBlogPost.t))
         (fetchingImg : string) (response : Http.Response),
    fetch endpoint = Resolved response ->
    Http.ok response = false ->
    let get := fun url => outcome (Http.get fetch JSON_parse url) in
    fetchedPosts (finalState get) = None
    /\ App fetchingImg (finalState get)
       = page fetchingImg (ErrorMessage "Failed to fetch data.").
Proof.
  intros fetch JSON_parse fetchingImg response Hfetch Hok get.
  assert (Hget : get endpoint = Rejected (new_Error "Failed to fetch data.")).
  { unfold get. rewrite (get_not_ok fetch JSON_parse endpoint response Hfetch Hok).
    reflexivity. }
  destruct (final_after_Error_rejection get fetchingImg _ _ Hget eq_refl)
    as [Hfinal Hview]; [discriminate |].
  split; [rewrite Hfinal; reflexivity | exact Hview].
Qed.

Lemma failure_status_ends_in_error_view_witness :
  let fetch := fun _ : string =>
    Resolved {| Http.ok := false; Http.body := "Not Found" |} in
  let JSON_parse := fun _ : string => Resolved (@nil RawDataBlogPost.t) in
  let get := fun url => outcome (Http.get fetch JSON_parse url) in
  fetchedPosts (finalState get) = None
  /\ App "/assets/react.svg" (finalState get)
     = page "/assets/react.svg" (ErrorMessage "Failed to fetch data.").
Proof.
  intros fetch JSON_parse.
  apply (failure_status_ends_in_error_view fetch JSON_parse "/assets/react.svg"
           {| Http.ok := false; Http.body := "Not Found" |});
    reflexivity.
Defined.

(** X23. With the README's [get] as the helper, a rejection of [fetch]
    or of the decoding with an [Error] whose message is not empty ends
    in the error view with that very message, not with the helper's
    fixed one. *)
Theorem forwarded_rejection_is_shown_verbatim :
  forall (fetch : string -> Promise Http.Response)
         (JSON_parse : string -> Promise (list RawDataBlogPost.t))
         (fetchingImg : string) (reason : JsValue) (e : Error),
    (fetch endpoint = Rejected reason
     \/ exists response : Http.Response,
          fetch endpoint = Resolved response
          /\ Http.ok response = true
          /\ JSON_parse (Http.body response) = Rejected reason) ->
    instanceof_Error reason = Some e ->
    message e <> "" ->
    App fetchingImg (finalState (fun url => outcome (Http.get fetch JSON_parse url)))
    = page fetchingImg (ErrorMessage (message e)).
Proof.
  intros fetch JSON_parse fetchingImg reason e Hcause He Hmsg.
  set (get := fun url => outcome (Http.get fetch JSON_parse url)).
  assert (Hget : get endpoint = Rejected reason).
  { unfold get. destruct Hcause as [Hfetch | (response & Hfetch & Hok & Hjson)].
    - rewrite (get_fetch_rejected fetch JSON_parse endpoint reason Hfetch). reflexivity.
    - rewrite (get_ok fetch JSON_parse endpoint response Hfetch Hok). exact Hjson. }
  exact (proj2 (final_after_Error_rejection get fetchingImg reason e Hget He Hmsg)).
Qed.

Lemma forwarded_rejection_is_shown_verbatim_witness :
  let e := {| name := "TypeError"; message := "Failed to fetch" |} in
  let fetch := fun _ : string => Rejected (A := Http.Response) (JsErrorObject e) in
  let JSON_parse := fun _ : string => Resolved (@nil RawDataBlogPost.t) in
  App "/assets/react.svg"
    (finalState (fun url => outcome (Http.get fetch JSON_parse url)))
  = page "/assets/react.svg" (ErrorMessage "Failed to fetch").
Proof.
  intros e fetch JSON_parse.
  apply (forwarded_rejection_is_shown_verbatim fetch JSON_parse "/assets/react.svg"
           (JsErrorObject e) e);
    [left; reflexivity | reflexivity | discriminate].
Defined.

(** X24. With the README's [get] with a schema as the helper, decoded
    data that fails validation ends in the error view with the text
    "Invalid data received from server." and no records. *)
Theorem invalid_data_ends_in_error_view :
  forall (U : Type) (fetch : string -> Promise Http.Response)
         (JSON_parse : string -> Promise U)
         (zodSchema : U -> Promise (list RawDataBlogPost.t))
         (fetchingImg : string) (response : Http.Response) (data : U)
         (thrown : JsValue),
    fetch endpoint = Resolved response ->
    Http.ok response = true ->
    JSON_parse (Http.body response) = Resolved data ->
    zodSchema data = Rejected thrown ->
    let get := fun url => outcome (HttpZod.get fetch JSON_parse zodSchema url) in
    fetchedPosts (finalState get) = None
    /\ App fetchingImg (finalState get)
       = page fetchingImg (ErrorMessage "Invalid data received from server.").
Proof.
  intros U fetch JSON_parse zodSchema fetchingImg response data thrown
    Hfetch Hok Hjson Hzod get.
  assert (Hget : get endpoint
                 = Rejected (new_Error "Invalid data received from server.")).
  { unfold get.
    rewrite (zod_get_decoded fetch JSON_parse zodSchema endpoint response data
               Hfetch Hok Hjson).
    cbn. rewrite Hzod. reflexivity. }
  destruct (final_after_Error_rejection get fetchingImg _ _ Hget eq_refl)
    as [Hfinal Hview]; [discriminate |].
  split; [rewrite Hfinal; reflexivity | exact Hview].
Qed.

Lemma invalid_data_ends_in_error_view_witness :
  let response := {| Http.ok := true; Http.body := "{}" |} in
  let fetch := fun _ : string => Resolved response in
  let JSON_parse := fun _ : string => Resolved (JsPlainObject []) in
  let zodSchema := fun _ : JsValue =>
    Rejected (A := list RawDataBlogPost.t)
      (JsErrorObject {| name := "ZodError"; message := "Expected array, received object" |}) in
  let get := fun url => outcome (HttpZod.get fetch JSON_parse zodSchema url) in
  fetchedPosts (finalState get) = None
  /\ App "/assets/react.svg" (finalState get)
     = page "/assets/react.svg" (ErrorMessage "Invalid data received from server.").
Proof.
  intros response fetch JSON_parse zodSchema.
  apply (invalid_data_ends_in_error_view JsValue fetch JSON_parse zodSchema
           "/assets/react.svg" response (JsPlainObject [])
           (JsErrorObject {| name := "ZodError"; message := "Expected array, received object" |}));
    reflexivity.
Defined.
